(** * Conversation client (openai_model.py): shallow embedding and properties

    The embedding follows [src/openai_model.py] method by method.

    - A Python [str] is a sequence of Unicode code points ([pystr]).
    - Values that cross the boundary with the remote endpoint are dynamic
      Python values ([pyval]); attribute access ([x.name]) and subscripting
      ([x[k]]) are distinct protocols, as they are in the source
      ([chat] reads [response.choices[0].message.content], while
      [get_last_response] reads
      [self._response['choices'][0]['message']['content']]).
    - Methods run in a small state-and-exception monad over the client's
      attributes; [try ... except Exception] is the combinator [try_except].
    - The remote endpoint is an oracle handed to the method that calls it.
    - Logger calls only emit diagnostic records; they never feed back into
      the attributes or the returned value and are not part of the model. *)

From Stdlib Require Import ZArith NArith List String Ascii Lia.
From stdpp Require Import base decidable option list strings gmap.

Open Scope Z_scope.

(** ** Python strings *)

Abbreviation codepoint := N (only parsing).
Abbreviation pystr := (list N) (only parsing).

(** A source literal (ASCII text) as a Python [str]. *)
Definition py (s : string) : pystr :=
  List.map N_of_ascii (list_ascii_of_string s).

(** [str.isspace] on one code point: CPython's whitespace table
    (TAB..CR, FS..US, SPACE, NEL, NBSP and the Unicode space separators). *)
Definition isspace (c : codepoint) : bool :=
  (  ((9 <=? c) && (c <=? 13))
  || ((28 <=? c) && (c <=? 32))
  || (c =? 133) || (c =? 160) || (c =? 5760)
  || ((8192 <=? c) && (c <=? 8202))
  || (c =? 8232) || (c =? 8233) || (c =? 8239) || (c =? 8287)
  || (c =? 12288))%N.

Fixpoint lstrip (s : pystr) : pystr :=
  match s with
  | c :: s' => if isspace c then lstrip s' else s
  | [] => []
  end.

Definition rstrip (s : pystr) : pystr := rev (lstrip (rev s)).

(** [s.strip()] with no argument. *)
Definition strip (s : pystr) : pystr := rstrip (lstrip s).

(** ** Exceptions

    [exn] stands for instances of Python's [Exception] class, the ones a
    handler [except Exception] receives. *)
Inductive exn : Type :=
| ValueError (msg : string)
| TypeError
| AttributeError
| KeyError
| IndexError
| RemoteError (msg : string).  (* any other Exception raised by the endpoint *)

Inductive exc (A : Type) : Type :=
| Return (a : A)
| Raise (e : exn).
Arguments Return {A} a.
Arguments Raise {A} e.

#[global] Instance exc_ret : MRet exc := fun A a => Return a.
#[global] Instance exc_bind : MBind exc := fun A B f m =>
  match m with
  | Return a => f a
  | Raise e => Raise e
  end.

(** ** Python values exchanged with the remote endpoint *)

#[warnings="-register-all"]
Inductive pyval : Type :=
| PyNone
| PyInt (z : Z)
| PyStr (s : pystr)
| PyList (xs : list pyval)
| PyDict (kvs : list (pystr * pyval))      (* plain dict: subscript only *)
| PyObj (fields : list (pystr * pyval))    (* plain object: attributes only *)
| PyAttrDict (kvs : list (pystr * pyval)). (* dict whose keys are also attributes *)

(** First binding of key [k] in an association list. *)
Fixpoint assoc {V : Type} (k : pystr) (kvs : list (pystr * V)) : option V :=
  match kvs with
  | (k', v) :: rest => if decide (k = k') then Some v else assoc k rest
  | [] => None
  end.

(** [bool(v)] *)
Definition truthy (v : pyval) : bool :=
  match v with
  | PyNone => false
  | PyInt z => negb (z =? 0)
  | PyStr s => negb (bool_decide (s = []))
  | PyList xs => match xs with [] => false | _ => true end
  | PyDict kvs | PyAttrDict kvs => match kvs with [] => false | _ => true end
  | PyObj _ => true
  end.

(** [v.name] for a data attribute [name]. *)
Definition getattr (v : pyval) (name : pystr) : exc pyval :=
  match v with
  | PyObj kvs | PyAttrDict kvs =>
      match assoc name kvs with
      | Some x => Return x
      | None => Raise AttributeError
      end
  | _ => Raise AttributeError
  end.

(** [xs[i]] on a sequence, with Python's negative indices. *)
Definition seq_index {A : Type} (xs : list A) (i : Z) : exc A :=
  let n := Z.of_nat (length xs) in
  let j := if i <? 0 then i + n else i in
  if (0 <=? j) && (j <? n)
  then match nth_error xs (Z.to_nat j) with
       | Some x => Return x
       | None => Raise IndexError
       end
  else Raise IndexError.

(** [v[k]] for a string key [k]. *)
Definition getitem_key (v : pyval) (k : pystr) : exc pyval :=
  match v with
  | PyDict kvs | PyAttrDict kvs =>
      match assoc k kvs with
      | Some x => Return x
      | None => Raise KeyError
      end
  | _ => Raise TypeError
  end.

(** [v[i]] for an integer [i]. *)
Definition getitem_idx (v : pyval) (i : Z) : exc pyval :=
  match v with
  | PyList xs => seq_index xs i
  | PyStr s => c ← seq_index s i; Return (PyStr [c])
  | PyDict _ | PyAttrDict _ => Raise KeyError
  | _ => Raise TypeError
  end.

(** [v.strip()] *)
Definition call_strip (v : pyval) : exc pystr :=
  match v with
  | PyStr s => Return (strip s)
  | PyObj kvs | PyAttrDict kvs =>
      match assoc (py "strip") kvs with
      | Some _ => Raise TypeError
      | None => Raise AttributeError
      end
  | _ => Raise AttributeError
  end.

(** The elements a [for] loop over [v] visits. *)
Definition iterate (v : pyval) : exc (list pyval) :=
  match v with
  | PyList xs => Return xs
  | PyStr s => Return (List.map (fun c => PyStr [c]) s)
  | PyDict kvs | PyAttrDict kvs => Return (List.map PyStr (remove_dups (List.map fst kvs)))
  | _ => Raise TypeError
  end.

(** A list comprehension [[f x for x in xs]]: left to right, the first
    exception ends it. *)
Fixpoint comprehension {A B : Type} (f : A -> exc B) (xs : list A) : exc (list B) :=
  match xs with
  | [] => Return []
  | x :: xs' => y ← f x; ys ← comprehension f xs'; Return (y :: ys)
  end.

(** ** The client object

    One entry of the history: the dict [{"role": role, "content": content}]
    that [add_message] appends. *)
Record message : Type := Message { role : pystr; content : pystr }.

(** The attributes of an [OpenAIModel] instance.  [client] holds the
    credential the [OpenAI] handle was built from; [_response] is Python's
    [None] until a chat call stores a raw response. *)
Record OpenAIModel : Type := Client {
  client : pystr;
  model_name : pystr;
  max_tokens : Z;
  _messages : list message;
  _response : pyval
}.

Definition set_messages (ms : list message) (self : OpenAIModel) : OpenAIModel :=
  {| client := client self; model_name := model_name self;
     max_tokens := max_tokens self; _messages := ms;
     _response := _response self |}.

Definition set_response (r : pyval) (self : OpenAIModel) : OpenAIModel :=
  {| client := client self; model_name := model_name self;
     max_tokens := max_tokens self; _messages := _messages self;
     _response := r |}.

(** ** Methods as state transformers that may raise

    The attributes written before an exception is raised stay written. *)
Definition M (A : Type) : Type := OpenAIModel -> exc A * OpenAIModel.

#[global] Instance M_ret : MRet M := fun A a self => (Return a, self).
#[global] Instance M_bind : MBind M := fun A B f m self =>
  match m self with
  | (Return a, self') => f a self'
  | (Raise e, self') => (Raise e, self')
  end.

Definition raise {A : Type} (e : exn) : M A := fun self => (Raise e, self).
Definition lift {A : Type} (r : exc A) : M A := fun self => (r, self).
Definition gets {A : Type} (f : OpenAIModel -> A) : M A := fun self => (Return (f self), self).
Definition modify (f : OpenAIModel -> OpenAIModel) : M unit := fun self => (Return tt, f self).

(** [try: body  except Exception as e: handler e] *)
Definition try_except {A : Type} (body : M A) (handler : exn -> M A) : M A :=
  fun self =>
    match body self with
    | (Return a, self') => (Return a, self')
    | (Raise e, self') => handler e self'
    end.

(** *** [get_model_max_tokens] *)

Definition token_limits : gmap pystr Z :=
  <[py "gpt-4o-mini" := 16384]> (<[py "gpt-3.5-turbo" := 4096]> ∅).

Definition get_model_max_tokens (name : pystr) : Z :=
  match token_limits !! name with
  | None => 4096                           (* [not None] *)
  | Some limit => if limit =? 0 then 4096  (* [not 0] *)
                  else limit
  end.

(** *** [__init__] *)
Definition __init__ (api_key name : pystr) : OpenAIModel :=
  {| client := api_key;
     model_name := name;
     max_tokens := get_model_max_tokens name;
     _messages := [];
     _response := PyNone |}.

(** *** [list_available_models]

    [models_list] is the outcome of [self.client.models.list()]. *)
Definition list_available_models (models_list : exc pyval) : M pyval :=
  try_except
    (models ← lift models_list;
     data ← lift (getitem_key models (py "data"));
     entries ← lift (iterate data);
     available_models ← lift (comprehension (fun model => getitem_key model (py "id")) entries);
     mret (PyList available_models))
    (fun e => mret PyNone).

(** *** [add_message] *)

Definition valid_role (r : pystr) : bool :=
  bool_decide (r = py "user") || bool_decide (r = py "assistant")
  || bool_decide (r = py "system").

Definition invalid_role_msg : string :=
  "Invalid role. Choose from 'user', 'assistant', or 'system'.".
Definition empty_content_msg : string :=
  "Content must be a non-empty string.".

Definition add_message (r c : pystr) : M unit :=
  if negb (valid_role r) then raise (ValueError invalid_role_msg)
  else if bool_decide (strip c = []) then raise (ValueError empty_content_msg)
  else modify (fun self => set_messages (_messages self ++ [Message r (strip c)]) self).

(** *** [chat] *)

(** The keyword arguments of [self.client.chat.completions.create]. The
    four sampling parameters are forwarded as they were received. *)
Record request : Type := Request {
  req_model : pystr;
  req_messages : list message;
  req_max_tokens : Z;
  req_temperature : pyval;
  req_top_p : pyval;
  req_n : pyval;
  req_stop : pyval
}.

Record sampling : Type := Sampling {
  temperature : pyval; top_p : pyval; n : pyval; stop : pyval
}.

Definition chat_request (p : sampling) (self : OpenAIModel) : request :=
  {| req_model := model_name self;
     req_messages := _messages self;
     req_max_tokens := max_tokens self;
     req_temperature := temperature p;
     req_top_p := top_p p;
     req_n := n p;
     req_stop := stop p |}.

(** [response.choices[0].message.content] *)
Definition first_content_attr (response : pyval) : exc pyval :=
  choices ← getattr response (py "choices");
  choice ← getitem_idx choices 0;
  msg ← getattr choice (py "message");
  getattr msg (py "content").

(** [create] is the remote completion endpoint. *)
Definition chat (create : request -> exc pyval) (p : sampling) : M pyval :=
  try_except
    (req ← gets (chat_request p);
     response ← lift (create req);
     raw ← lift (first_content_attr response);
     response_content ← lift (call_strip raw);
     _ ← add_message (py "assistant") response_content;
     _ ← modify (set_response response);
     mret (PyStr response_content))
    (fun e => mret PyNone).

(** *** [reset_conversation] *)
Definition reset_conversation : M unit :=
  _ ← modify (set_messages []);
  modify (set_response PyNone).

(** *** [get_last_response] *)

(** [response['choices'][0]['message']['content']] *)
Definition first_content_item (response : pyval) : exc pyval :=
  choices ← getitem_key response (py "choices");
  choice ← getitem_idx choices 0;
  msg ← getitem_key choice (py "message");
  getitem_key msg (py "content").

Definition get_last_response : M pyval :=
  response ← gets _response;
  if truthy response
  then lift (first_content_item response)
  else mret PyNone.

(** ** Mock responses used in the examples

    [attr_completion] has the shape of the objects the current client
    library returns (attribute access only); [legacy_completion] is a
    mapping that also exposes its keys as attributes. *)
Definition attr_completion (c : pystr) : pyval :=
  PyObj [(py "choices",
          PyList [PyObj [(py "message",
                          PyObj [(py "role", PyStr (py "assistant"));
                                 (py "content", PyStr c)])]])].

Definition legacy_completion (c : pystr) : pyval :=
  PyAttrDict [(py "choices",
               PyList [PyAttrDict [(py "message",
                                    PyAttrDict [(py "role", PyStr (py "assistant"));
                                                (py "content", PyStr c)])]])].

(** Sampling arguments for the examples. [chat] never inspects the four
    values (its own defaults are 0.7, 1.0, 1 and [None]); the two floats are
    stood in for by [None] here. *)
Definition test_sampling : sampling :=
  {| temperature := PyNone; top_p := PyNone; n := PyInt 1; stop := PyNone |}.

(** ** Sequences of public calls *)

Inductive call : Type :=
| AddMessage (r c : pystr)
| Chat (create : request -> exc pyval) (p : sampling)
| ResetConversation
| GetLastResponse
| ListAvailableModels (models_list : exc pyval).

(** The attributes after one call; an exception that escapes the call
    leaves whatever the method had written. *)
Definition after (op : call) (self : OpenAIModel) : OpenAIModel :=
  match op with
  | AddMessage r c => snd (add_message r c self)
  | Chat create p => snd (chat create p self)
  | ResetConversation => snd (reset_conversation self)
  | GetLastResponse => snd (get_last_response self)
  | ListAvailableModels outcome => snd (list_available_models outcome self)
  end.

Definition run (calls : list call) (self : OpenAIModel) : OpenAIModel :=
  fold_left (fun s c => after c s) calls self.

Definition reachable (self : OpenAIModel) : Prop :=
  exists api_key name calls, self = run calls (__init__ api_key name).

(** The invariant on one history entry. *)
Definition well_formed (m : message) : Prop :=
  valid_role (role m) = true /\ strip (content m) <> [].

(** * Properties *)

(** ** Trimming *)
Section Strip.

Lemma lstrip_all_space s : forallb isspace s = true -> lstrip s = [].
Proof.
  induction s as [|c s IH]; simpl; [done|].
  intros [Hc Hs]%andb_prop. rewrite Hc. auto.
Qed.

Lemma lstrip_nil_inv s : lstrip s = [] -> forallb isspace s = true.
Proof.
  induction s as [|c s IH]; simpl; [done|].
  destruct (isspace c); [auto | discriminate].
Qed.

Lemma lstrip_snoc s c : isspace c = false -> lstrip (s ++ [c]) = lstrip s ++ [c].
Proof.
  intros Hc. induction s as [|d s IH]; simpl.
  - by rewrite Hc.
  - destruct (isspace d); [exact IH | reflexivity].
Qed.

Lemma lstrip_cons_keep c s : isspace c = false -> lstrip (c :: s) = c :: s.
Proof. intros Hc. simpl. by rewrite Hc. Qed.

(** What [lstrip] returns is empty or starts with a non-space. *)
Lemma lstrip_head s : lstrip s = [] \/ exists c t, lstrip s = c :: t /\ isspace c = false.
Proof.
  induction s as [|c s IH]; simpl; [by left|].
  destruct (isspace c) eqn:Hc; [exact IH|]. right. eauto.
Qed.

Lemma rstrip_cons_keep c s : isspace c = false -> rstrip (c :: s) = c :: rstrip s.
Proof.
  intros Hc. unfold rstrip. simpl.
  rewrite lstrip_snoc by done. by rewrite rev_app_distr.
Qed.

Lemma rstrip_idemp s : rstrip (rstrip s) = rstrip s.
Proof.
  unfold rstrip. rewrite rev_involutive. f_equal.
  destruct (lstrip_head (rev s)) as [-> | (c & t & -> & Hc)]; [done|].
  by apply lstrip_cons_keep.
Qed.

Lemma strip_idemp s : strip (strip s) = strip s.
Proof.
  unfold strip.
  destruct (lstrip_head s) as [-> | (c & t & -> & Hc)]; [done|].
  rewrite (rstrip_cons_keep c t) by done.
  rewrite lstrip_cons_keep by done.
  rewrite rstrip_cons_keep by done.
  by rewrite rstrip_idemp.
Qed.

(** Trimming leaves nothing exactly when every code point is a space. *)
Lemma strip_nil_iff s : strip s = [] <-> forallb isspace s = true.
Proof.
  unfold strip. split.
  - intros H. destruct (lstrip_head s) as [E | (c & t & E & Hc)].
    + by apply lstrip_nil_inv.
    + rewrite E, rstrip_cons_keep in H by done. discriminate.
  - intros H. by rewrite (lstrip_all_space s H).
Qed.

Lemma strip_py_literal_fixed :
  strip (py "Bonjour!") = py "Bonjour!".
Proof. reflexivity. Qed.

End Strip.

(** ** Stepping the methods *)

Ltac step_M :=
  cbv beta iota delta
    [try_except mbind M_bind mret M_ret exc_bind exc_ret lift gets modify raise].

Section AddMessage.
Variables (r c : pystr) (self : OpenAIModel).

Lemma add_message_invalid_role :
  valid_role r = false ->
  add_message r c self = (Raise (ValueError invalid_role_msg), self).
Proof. intros H. unfold add_message. by rewrite H. Qed.

Lemma add_message_blank :
  valid_role r = true -> strip c = [] ->
  add_message r c self = (Raise (ValueError empty_content_msg), self).
Proof.
  intros H1 H2. unfold add_message. rewrite H1. simpl.
  by rewrite bool_decide_eq_true_2.
Qed.

Lemma add_message_ok :
  valid_role r = true -> strip c <> [] ->
  add_message r c self =
    (Return tt, set_messages (_messages self ++ [Message r (strip c)]) self).
Proof.
  intros H1 H2. unfold add_message. rewrite H1. simpl.
  by rewrite bool_decide_eq_false_2.
Qed.
End AddMessage.

Lemma valid_role_spec r :
  valid_role r = true <-> r = py "user" \/ r = py "assistant" \/ r = py "system".
Proof.
  unfold valid_role. rewrite !orb_true_iff, !bool_decide_eq_true. tauto.
Qed.

Section ChatSteps.
Variables (create : request -> exc pyval) (p : sampling) (self : OpenAIModel).

Lemma chat_remote_raises e :
  create (chat_request p self) = Raise e ->
  chat create p self = (Return PyNone, self).
Proof. intros H. unfold chat. step_M. by rewrite H. Qed.

Lemma chat_unreadable response e :
  create (chat_request p self) = Return response ->
  first_content_attr response = Raise e ->
  chat create p self = (Return PyNone, self).
Proof. intros H1 H2. unfold chat. step_M. by rewrite H1, H2. Qed.

Lemma chat_not_text response raw e :
  create (chat_request p self) = Return response ->
  first_content_attr response = Return raw ->
  call_strip raw = Raise e ->
  chat create p self = (Return PyNone, self).
Proof. intros H1 H2 H3. unfold chat. step_M. by rewrite H1, H2, H3. Qed.

Lemma chat_blank response raw :
  create (chat_request p self) = Return response ->
  first_content_attr response = Return (PyStr raw) ->
  strip raw = [] ->
  chat create p self = (Return PyNone, self).
Proof.
  intros H1 H2 H3. unfold chat. step_M. rewrite H1, H2. simpl.
  rewrite add_message_blank; [done | done |].
  by rewrite strip_idemp.
Qed.

Lemma chat_ok response raw :
  create (chat_request p self) = Return response ->
  first_content_attr response = Return (PyStr raw) ->
  strip raw <> [] ->
  chat create p self =
    (Return (PyStr (strip raw)),
     set_response response
       (set_messages (_messages self ++ [Message (py "assistant") (strip raw)]) self)).
Proof.
  intros H1 H2 H3. unfold chat. step_M. rewrite H1, H2. simpl.
  rewrite add_message_ok; [| done | by rewrite strip_idemp].
  by rewrite strip_idemp.
Qed.

(** Every run of [chat] is one of the two above: nothing changed and
    [None] returned, or one assistant turn appended. *)
Lemma chat_cases :
  chat create p self = (Return PyNone, self)
  \/ exists response raw,
       create (chat_request p self) = Return response
       /\ first_content_attr response = Return (PyStr raw)
       /\ strip raw <> []
       /\ chat create p self =
            (Return (PyStr (strip raw)),
             set_response response
               (set_messages (_messages self ++ [Message (py "assistant") (strip raw)]) self)).
Proof.
  destruct (create (chat_request p self)) as [response|e] eqn:H1;
    [| left; by eapply chat_remote_raises].
  destruct (first_content_attr response) as [raw|e] eqn:H2;
    [| left; by eapply chat_unreadable].
  destruct (call_strip raw) as [s|e] eqn:H3;
    [| left; by eapply chat_not_text].
  assert (raw = PyStr match raw with PyStr t => t | _ => [] end) as Hraw.
  { destruct raw; try discriminate; try reflexivity;
      simpl in H3; destruct (assoc _ _); discriminate. }
  rewrite Hraw in H2. set (t := match raw with PyStr t => t | _ => [] end) in *.
  destruct (decide (strip t = [])) as [Hb|Hb].
  - left. by eapply chat_blank.
  - right. exists response, t. repeat split; try done. by apply chat_ok.
Qed.
End ChatSteps.

Lemma get_last_response_state self : snd (get_last_response self) = self.
Proof.
  unfold get_last_response. step_M. by destruct (truthy (_response self)).
Qed.

Lemma list_available_models_state outcome self :
  snd (list_available_models outcome self) = self.
Proof.
  unfold list_available_models. step_M.
  destruct outcome as [models|e]; [|done].
  destruct (getitem_key models _) as [data|e]; [|done].
  destruct (iterate data) as [entries|e]; [|done].
  by destruct (comprehension _ entries).
Qed.

(** ** Claims about [chat] *)

Definition one_user_turn : OpenAIModel :=
  snd (add_message (py "user") (py "Hi") (__init__ (py "sk-test") (py "gpt-4o-mini"))).

Definition failing_endpoint : request -> exc pyval :=
  fun _ => Raise (RemoteError "connection refused").

(** C1. Whatever the client's attributes, when the remote completion call
    raises an error, [chat] returns [None] (it does not raise) and leaves
    every attribute, the history included, as it was. *)
Theorem chat_failure_returns_none
    (create : request -> exc pyval) (p : sampling) (self : OpenAIModel) (e : exn) :
  create (chat_request p self) = Raise e ->
  chat create p self = (Return PyNone, self)
  /\ _messages (snd (chat create p self)) = _messages self.
Proof.
  intros H. rewrite (chat_remote_raises create p self e H). by split.
Qed.

Lemma chat_failure_returns_none_witness :
  chat failing_endpoint test_sampling one_user_turn = (Return PyNone, one_user_turn)
  /\ length (_messages (snd (chat failing_endpoint test_sampling one_user_turn))) = 1%nat.
Proof.
  destruct (chat_failure_returns_none failing_endpoint test_sampling one_user_turn
              (RemoteError "connection refused") eq_refl) as [H1 H2].
  split; [exact H1 | rewrite H2; reflexivity].
Defined.

(** C2, as the code has it. When the remote completion call returns a
    response whose first candidate's content is a text that is not empty
    after trimming, [chat] appends the trimmed text to the history as an
    assistant turn, stores the raw response as [_response], returns the
    trimmed text, and the history is one entry longer. *)
Theorem chat_success_appends_assistant_turn
    (create : request -> exc pyval) (p : sampling) (self : OpenAIModel)
    (response : pyval) (raw : pystr) :
  create (chat_request p self) = Return response ->
  first_content_attr response = Return (PyStr raw) ->
  strip raw <> [] ->
  let self' := snd (chat create p self) in
  fst (chat create p self) = Return (PyStr (strip raw))
  /\ _messages self' = _messages self ++ [Message (py "assistant") (strip raw)]
  /\ _response self' = response
  /\ length (_messages self') = S (length (_messages self))
  /\ client self' = client self /\ model_name self' = model_name self
  /\ max_tokens self' = max_tokens self.
Proof.
  intros H1 H2 H3. cbv zeta. rewrite (chat_ok create p self response raw H1 H2 H3).
  simpl. repeat split. rewrite length_app. simpl. lia.
Qed.

Lemma chat_success_appends_assistant_turn_witness :
  fst (chat (fun _ => Return (attr_completion (py "Bonjour!"))) test_sampling one_user_turn)
    = Return (PyStr (py "Bonjour!"))
  /\ _messages (snd (chat (fun _ => Return (attr_completion (py "Bonjour!")))
                       test_sampling one_user_turn))
     = [Message (py "user") (py "Hi"); Message (py "assistant") (py "Bonjour!")].
Proof.
  destruct (chat_success_appends_assistant_turn
              (fun _ => Return (attr_completion (py "Bonjour!")))
              test_sampling one_user_turn
              (attr_completion (py "Bonjour!")) (py "Bonjour!")
              eq_refl eq_refl ltac:(discriminate)) as (H1 & H2 & _).
  split; [exact H1 | exact H2].
Defined.

(** C2 as stated fails: the remote call succeeds and its first candidate
    carries the text of three spaces, yet [chat] returns [None] and the
    history keeps its single entry. *)
Lemma chat_success_blank_counterexample :
  let create := fun _ : request => Return (attr_completion (py "   ")) in
  create (chat_request test_sampling one_user_turn) = Return (attr_completion (py "   "))
  /\ first_content_attr (attr_completion (py "   ")) = Return (PyStr (py "   "))
  /\ fst (chat create test_sampling one_user_turn) = Return PyNone
  /\ fst (chat create test_sampling one_user_turn) <> Return (PyStr (strip (py "   ")))
  /\ length (_messages (snd (chat create test_sampling one_user_turn)))
     <> S (length (_messages one_user_turn))
  /\ _response (snd (chat create test_sampling one_user_turn)) = PyNone.
Proof. cbv zeta. repeat split; try reflexivity; vm_compute; discriminate. Qed.

(** C10. When the remote completion call succeeds but the first candidate's
    content is empty or all whitespace, the [ValueError] that [add_message]
    raises is caught by [chat]'s handler: [chat] returns [None], and the
    history and the stored raw response are what they were. *)
Theorem chat_blank_completion_returns_none
    (create : request -> exc pyval) (p : sampling) (self : OpenAIModel)
    (response : pyval) (raw : pystr) :
  create (chat_request p self) = Return response ->
  first_content_attr response = Return (PyStr raw) ->
  forallb isspace raw = true ->
  fst (add_message (py "assistant") (strip raw) self) = Raise (ValueError empty_content_msg)
  /\ chat create p self = (Return PyNone, self)
  /\ _messages (snd (chat create p self)) = _messages self
  /\ _response (snd (chat create p self)) = _response self.
Proof.
  intros H1 H2 H3%strip_nil_iff.
  rewrite (chat_blank create p self response raw H1 H2 H3).
  rewrite add_message_blank; [done | done | by rewrite H3].
Qed.

Lemma chat_blank_completion_returns_none_witness :
  chat (fun _ => Return (legacy_completion (py "   "))) test_sampling one_user_turn
  = (Return PyNone, one_user_turn).
Proof.
  exact (proj1 (proj2 (chat_blank_completion_returns_none
                  (fun _ => Return (legacy_completion (py "   ")))
                  test_sampling one_user_turn
                  (legacy_completion (py "   ")) (py "   ")
                  eq_refl eq_refl eq_refl))).
Defined.

(** ** Claims about [get_last_response] *)

Lemma item_readable_truthy response v :
  first_content_item response = Return v -> truthy response = true.
Proof.
  unfold first_content_item, getitem_key at 1.
  destruct response as [| | | |[|kv kvs]| |[|kv kvs]]; simpl; try discriminate; done.
Qed.

Lemma get_last_response_none self :
  _response self = PyNone -> get_last_response self = (Return PyNone, self).
Proof. intros H. unfold get_last_response. step_M. by rewrite H. Qed.

Lemma get_last_response_item self v :
  first_content_item (_response self) = Return v ->
  get_last_response self = (Return v, self).
Proof.
  intros H. unfold get_last_response. step_M.
  by rewrite (item_readable_truthy _ _ H), H.
Qed.

Lemma get_last_response_ignores_history self ms :
  fst (get_last_response (set_messages ms self)) = fst (get_last_response self).
Proof.
  unfold get_last_response. step_M. simpl.
  by destruct (truthy (_response self)).
Qed.

(** After a chat that succeeded on a response readable in both ways, the
    stored raw response yields its content as the endpoint sent it. *)
Lemma chat_then_last_response create p self response raw v :
  create (chat_request p self) = Return response ->
  first_content_attr response = Return (PyStr raw) ->
  first_content_item response = Return v ->
  strip raw <> [] ->
  fst (chat create p self) = Return (PyStr (strip raw))
  /\ fst (get_last_response (snd (chat create p self))) = Return v.
Proof.
  intros H1 H2 H3 H4. rewrite (chat_ok create p self response raw H1 H2 H4).
  split; [done|]. simpl. by rewrite (get_last_response_item _ v).
Qed.

(** C3. The code departs from this behaviour. With the endpoint returning
    an attribute-only completion whose text is "Bonjour!" (the shape of the
    client library's responses) and one prior user turn "Hi", [chat]
    returns "Bonjour!", the history is user "Hi" then assistant "Bonjour!"
    and the response is stored; [get_last_response] then subscripts the
    stored object and raises [TypeError] where "Bonjour!" was due. *)
Theorem get_last_response_fails_after_successful_chat :
  let create := fun _ : request => Return (attr_completion (py "Bonjour!")) in
  let self := snd (chat create test_sampling one_user_turn) in
  fst (chat create test_sampling one_user_turn) = Return (PyStr (py "Bonjour!"))
  /\ _messages self = [Message (py "user") (py "Hi");
                       Message (py "assistant") (py "Bonjour!")]
  /\ _response self = attr_completion (py "Bonjour!")
  /\ first_content_attr (_response self) = Return (PyStr (py "Bonjour!"))
  /\ get_last_response self = (Raise TypeError, self)
  /\ fst (get_last_response self) <> Return (PyStr (py "Bonjour!")).
Proof.
  cbv zeta.
  assert (chat (fun _ => Return (attr_completion (py "Bonjour!")))
               test_sampling one_user_turn
          = (Return (PyStr (py "Bonjour!")),
             set_response (attr_completion (py "Bonjour!"))
               (set_messages [Message (py "user") (py "Hi");
                              Message (py "assistant") (py "Bonjour!")]
                  one_user_turn))) as ->.
  { rewrite (chat_ok _ test_sampling one_user_turn
               (attr_completion (py "Bonjour!")) (py "Bonjour!") eq_refl eq_refl);
      [reflexivity | rewrite strip_py_literal_fixed; discriminate]. }
  simpl. repeat split. discriminate.
Qed.

(** On responses that can be subscripted. [get_last_response] returns
    [None] when no raw
    response is stored; when the stored raw response can be read as
    [['choices'][0]['message']['content']] it returns that content as
    stored, untrimmed; the answer depends on [_response] alone, never on
    the history. After a successful [chat] on a response readable in both
    ways with content [raw], [chat] returned [strip raw] and
    [get_last_response] returns [raw]; for the content "Bonjour!" both are
    "Bonjour!". *)
Theorem get_last_response_reads_raw_response (self : OpenAIModel) :
  (_response self = PyNone -> get_last_response self = (Return PyNone, self))
  /\ (forall v, first_content_item (_response self) = Return v ->
                get_last_response self = (Return v, self))
  /\ (forall ms, fst (get_last_response (set_messages ms self))
                 = fst (get_last_response self))
  /\ (forall create p response raw,
        create (chat_request p self) = Return response ->
        first_content_attr response = Return (PyStr raw) ->
        first_content_item response = Return (PyStr raw) ->
        strip raw <> [] ->
        fst (chat create p self) = Return (PyStr (strip raw))
        /\ fst (get_last_response (snd (chat create p self))) = Return (PyStr raw))
  /\ (forall create p response,
        create (chat_request p self) = Return response ->
        first_content_attr response = Return (PyStr (py "Bonjour!")) ->
        first_content_item response = Return (PyStr (py "Bonjour!")) ->
        fst (chat create p self) = Return (PyStr (py "Bonjour!"))
        /\ fst (get_last_response (snd (chat create p self)))
           = Return (PyStr (py "Bonjour!"))).
Proof.
  split; [apply get_last_response_none|].
  split; [intros v; apply get_last_response_item|].
  split; [intros ms; apply get_last_response_ignores_history|].
  split.
  - intros create p response raw. apply chat_then_last_response.
  - intros create p response H1 H2 H3.
    assert (strip (py "Bonjour!") <> []) as Hne
      by (rewrite strip_py_literal_fixed; discriminate).
    destruct (chat_then_last_response create p self response (py "Bonjour!")
                (PyStr (py "Bonjour!")) H1 H2 H3 Hne) as [Ha Hb].
    rewrite strip_py_literal_fixed in Ha. by split.
Qed.

Lemma get_last_response_reads_raw_response_witness :
  let create := fun _ : request => Return (legacy_completion (py "Bonjour!")) in
  fst (chat create test_sampling one_user_turn) = Return (PyStr (py "Bonjour!"))
  /\ fst (get_last_response (snd (chat create test_sampling one_user_turn)))
     = Return (PyStr (py "Bonjour!"))
  /\ get_last_response one_user_turn = (Return PyNone, one_user_turn).
Proof.
  cbv zeta.
  destruct (get_last_response_reads_raw_response one_user_turn)
    as (Hnone & _ & _ & _ & Hbonjour).
  destruct (Hbonjour (fun _ => Return (legacy_completion (py "Bonjour!")))
              test_sampling (legacy_completion (py "Bonjour!"))
              eq_refl eq_refl eq_refl) as [H1 H2].
  split; [exact H1|]. split; [exact H2|]. exact (Hnone eq_refl).
Defined.

(** On a response readable in both ways whose text is padded, [chat]
    returned "Bonjour!" and [get_last_response] then returns the padded
    text the endpoint sent. *)
Lemma get_last_response_padded_counterexample :
  let create := fun _ : request => Return (legacy_completion (py " Bonjour! ")) in
  let self := snd (chat create test_sampling one_user_turn) in
  fst (chat create test_sampling one_user_turn) = Return (PyStr (py "Bonjour!"))
  /\ fst (get_last_response self) = Return (PyStr (py " Bonjour! "))
  /\ fst (get_last_response self) <> Return (PyStr (py "Bonjour!")).
Proof. cbv zeta. repeat split; try reflexivity. vm_compute. discriminate. Qed.

(** A response that [chat] can read by attributes and that
    [get_last_response] can read by subscripts is a mapping whose keys are
    also attributes. *)
Lemma both_readable_is_attr_dict response v w :
  first_content_attr response = Return v ->
  first_content_item response = Return w ->
  exists kvs, response = PyAttrDict kvs.
Proof.
  unfold first_content_attr, first_content_item.
  destruct response; simpl; try discriminate. eauto.
Qed.


(** ** Claims about [add_message] *)

(** C4. [add_message] raises exactly when the role is none of "user",
    "assistant", "system", or the content is empty or all whitespace. The
    exception is the [ValueError] for the role in the first case and the
    [ValueError] for the content in the second; whenever it raises, the
    attributes, the history among them, are unchanged. *)
Theorem add_message_validation (r c : pystr) (self : OpenAIModel) :
  let role_outside := r <> py "user" /\ r <> py "assistant" /\ r <> py "system" in
  let blank := forallb isspace c = true in
  ((exists e, fst (add_message r c self) = Raise e) <-> role_outside \/ blank)
  /\ (role_outside ->
      fst (add_message r c self) = Raise (ValueError invalid_role_msg))
  /\ (~ role_outside -> blank ->
      fst (add_message r c self) = Raise (ValueError empty_content_msg))
  /\ (forall e, fst (add_message r c self) = Raise e ->
                snd (add_message r c self) = self
                /\ _messages (snd (add_message r c self)) = _messages self).
Proof.
  cbv zeta.
  assert (valid_role r = false <->
          r <> py "user" /\ r <> py "assistant" /\ r <> py "system") as Hrole.
  { rewrite <- not_true_iff_false, valid_role_spec. tauto. }
  rewrite <- (strip_nil_iff c).
  destruct (valid_role r) eqn:Hv.
  - assert (~ (r <> py "user" /\ r <> py "assistant" /\ r <> py "system")) as Hin
      by (intros H; apply Hrole in H; discriminate).
    destruct (decide (strip c = [])) as [Hb|Hb].
    + rewrite (add_message_blank r c self Hv Hb). simpl.
      repeat split; eauto; tauto.
    + rewrite (add_message_ok r c self Hv Hb). simpl.
      split; [split; [intros [e He]; discriminate | tauto]|].
      repeat split; try tauto; intros; discriminate.
  - assert (r <> py "user" /\ r <> py "assistant" /\ r <> py "system") as Hout
      by (by apply Hrole).
    rewrite (add_message_invalid_role r c self Hv). simpl.
    repeat split; eauto; tauto.
Qed.

Lemma add_message_validation_witness :
  fst (add_message (py "narrator") (py "Hi") one_user_turn)
  = Raise (ValueError invalid_role_msg)
  /\ _messages (snd (add_message (py "narrator") (py "Hi") one_user_turn))
     = _messages one_user_turn
  /\ fst (add_message (py "user") (py "   ") one_user_turn)
     = Raise (ValueError empty_content_msg).
Proof.
  destruct (add_message_validation (py "narrator") (py "Hi") one_user_turn)
    as (_ & Hrole & _ & Hsame).
  destruct (add_message_validation (py "user") (py "   ") one_user_turn)
    as (_ & _ & Hblank & _).
  assert (py "narrator" <> py "user" /\ py "narrator" <> py "assistant"
          /\ py "narrator" <> py "system") as Hout
    by (repeat split; discriminate).
  split; [exact (Hrole Hout)|].
  split; [exact (proj2 (Hsame _ (Hrole Hout)))|].
  apply Hblank; [intros (Hu & _); by apply Hu | reflexivity].
Defined.

(** ** Claims about construction *)

Lemma token_limits_lookup name :
  token_limits !! name =
    if decide (py "gpt-4o-mini" = name) then Some 16384
    else if decide (py "gpt-3.5-turbo" = name) then Some 4096
    else None.
Proof.
  unfold token_limits. rewrite !lookup_insert, lookup_empty. reflexivity.
Qed.

(** C5. Construction resolves the model name against the table of token
    limits: "gpt-4o-mini" gives 16384, "gpt-3.5-turbo" gives 4096, and a
    name that is not in the table ("foo-bar" for one) gives the default
    4096; the constructed client carries that value, an empty history and
    no raw response. *)
Theorem max_tokens_resolved_at_construction (api_key name : pystr) :
  max_tokens (__init__ api_key (py "gpt-4o-mini")) = 16384
  /\ max_tokens (__init__ api_key (py "gpt-3.5-turbo")) = 4096
  /\ max_tokens (__init__ api_key (py "foo-bar")) = 4096
  /\ (token_limits !! name = None -> max_tokens (__init__ api_key name) = 4096)
  /\ max_tokens (__init__ api_key name) = get_model_max_tokens name
  /\ model_name (__init__ api_key name) = name
  /\ _messages (__init__ api_key name) = []
  /\ _response (__init__ api_key name) = PyNone.
Proof.
  simpl. unfold get_model_max_tokens. rewrite !token_limits_lookup.
  repeat split; try reflexivity.
  intros H. repeat case_decide; try discriminate; reflexivity.
Qed.

Lemma max_tokens_resolved_at_construction_witness :
  token_limits !! py "claude-unknown" = None
  /\ max_tokens (__init__ (py "sk-test") (py "claude-unknown")) = 4096.
Proof.
  assert (token_limits !! py "claude-unknown" = None) as H
    by (rewrite token_limits_lookup; reflexivity).
  split; [exact H|].
  exact (proj1 (proj2 (proj2 (proj2
           (max_tokens_resolved_at_construction (py "sk-test") (py "claude-unknown"))))) H).
Defined.

(** ** The history invariant *)

Section Invariant.

Let inv (self : OpenAIModel) : Prop := Forall well_formed (_messages self).

Lemma inv_init api_key name : inv (__init__ api_key name).
Proof. constructor. Qed.

Lemma inv_add_message r c self : inv self -> inv (snd (add_message r c self)).
Proof.
  intros Hinv. destruct (valid_role r) eqn:Hv.
  - destruct (decide (strip c = [])) as [Hb|Hb].
    + by rewrite add_message_blank.
    + rewrite add_message_ok by done. unfold inv; simpl.
      apply Forall_app; split; [exact Hinv|].
      constructor; [|constructor]. split; simpl; [done|].
      by rewrite strip_idemp.
  - by rewrite add_message_invalid_role.
Qed.

Lemma inv_chat create p self : inv self -> inv (snd (chat create p self)).
Proof.
  intros Hinv.
  destruct (chat_cases create p self) as [-> | (response & raw & _ & _ & Hne & ->)];
    [done|].
  unfold inv; simpl. apply Forall_app; split; [exact Hinv|].
  constructor; [|constructor]. split; simpl; [reflexivity|].
  by rewrite strip_idemp.
Qed.

Lemma inv_after c self : inv self -> inv (after c self).
Proof.
  intros Hinv. destruct c; simpl.
  - by apply inv_add_message.
  - by apply inv_chat.
  - constructor.
  - by rewrite get_last_response_state.
  - by rewrite list_available_models_state.
Qed.

Lemma inv_run calls self : inv self -> inv (run calls self).
Proof.
  revert self. induction calls as [|c calls IH]; intros self Hinv; simpl.
  - exact Hinv.
  - apply IH. by apply inv_after.
Qed.

End Invariant.

(** C6. In every state reached from construction by any sequence of
    [add_message], [chat], [reset_conversation], [get_last_response] and
    [list_available_models] calls, every history entry has one of the roles
    "user", "assistant", "system" and a content that is not empty after
    trimming. *)
Theorem history_entries_well_formed (self : OpenAIModel) :
  reachable self ->
  forall m, In m (_messages self) ->
    (role m = py "user" \/ role m = py "assistant" \/ role m = py "system")
    /\ strip (content m) <> [].
Proof.
  intros (api_key & name & calls & ->) m Hin.
  pose proof (inv_run calls _ (inv_init api_key name)) as Hall.
  rewrite List.Forall_forall in Hall. destruct (Hall m Hin) as [Hr Hc].
  split; [by apply valid_role_spec | exact Hc].
Qed.

Definition sample_session : list call :=
  [ AddMessage (py "user") (py " Hi ");
    AddMessage (py "narrator") (py "once upon a time");
    Chat (fun _ => Return (legacy_completion (py " Bonjour! "))) test_sampling;
    GetLastResponse;
    Chat failing_endpoint test_sampling;
    ListAvailableModels (Raise (RemoteError "timeout")) ].

Lemma history_entries_well_formed_witness :
  let self := run sample_session (__init__ (py "sk-test") (py "gpt-4o-mini")) in
  _messages self = [Message (py "user") (py "Hi"); Message (py "assistant") (py "Bonjour!")]
  /\ strip (py "Bonjour!") <> [].
Proof.
  cbv zeta. split; [reflexivity|].
  refine (proj2 (history_entries_well_formed
                   (run sample_session (__init__ (py "sk-test") (py "gpt-4o-mini")))
                   _ (Message (py "assistant") (py "Bonjour!")) _)).
  - exists (py "sk-test"), (py "gpt-4o-mini"), sample_session. reflexivity.
  - right. left. reflexivity.
Defined.

(** ** Claims about [reset_conversation] *)

(** C7. After [reset_conversation], whatever calls came before, the
    history is empty and [get_last_response] returns [None]; resetting a
    second time leaves the state the first reset produced. *)
Theorem reset_conversation_clears (self : OpenAIModel) :
  let self' := snd (reset_conversation self) in
  fst (reset_conversation self) = Return tt
  /\ _messages self' = []
  /\ length (_messages self') = 0%nat
  /\ _response self' = PyNone
  /\ get_last_response self' = (Return PyNone, self')
  /\ reset_conversation self' = (Return tt, self')
  /\ (forall calls api_key name,
        let s := run (calls ++ [ResetConversation]) (__init__ api_key name) in
        length (_messages s) = 0%nat /\ fst (get_last_response s) = Return PyNone).
Proof.
  cbv zeta. repeat split; intros; unfold run; by rewrite fold_left_app.
Qed.

(** ** Claims about [list_available_models] *)

Lemma comprehension_Forall2 {A B : Type} (f : A -> exc B) xs ys :
  comprehension f xs = Return ys <-> Forall2 (fun x y => f x = Return y) xs ys.
Proof.
  revert ys. induction xs as [|x xs IH]; intros ys; simpl.
  - split.
    + intros [= <-]. constructor.
    + intros H. by inversion H.
  - split.
    + destruct (f x) as [y|e] eqn:Hx; simpl; [|discriminate].
      destruct (comprehension f xs) as [ys'|e] eqn:Hxs; simpl; [|discriminate].
      intros [= <-]. constructor; [exact Hx | by apply IH].
    + intros H. inversion H as [|? y ? ys' Hx Hxs]; subst.
      rewrite Hx. simpl. apply IH in Hxs. by rewrite Hxs.
Qed.

(** On catalogs that can be subscripted. [list_available_models] never
    raises and never touches the
    attributes. When the catalog query raises, it returns [None]. When the
    query returns a catalog whose ["data"] can be iterated and whose
    entries each carry an ["id"], it returns the list of those ids in
    order. Every result other than [None] arises that way. *)
Theorem list_available_models_recovers (outcome : exc pyval) (self : OpenAIModel) :
  (exists v, list_available_models outcome self = (Return v, self))
  /\ (forall e, outcome = Raise e ->
        list_available_models outcome self = (Return PyNone, self))
  /\ (forall models data entries ids,
        outcome = Return models ->
        getitem_key models (py "data") = Return data ->
        iterate data = Return entries ->
        Forall2 (fun entry id => getitem_key entry (py "id") = Return id) entries ids ->
        list_available_models outcome self = (Return (PyList ids), self))
  /\ (forall v, fst (list_available_models outcome self) = Return v ->
        v = PyNone
        \/ exists models data entries ids,
             outcome = Return models
             /\ getitem_key models (py "data") = Return data
             /\ iterate data = Return entries
             /\ Forall2 (fun entry id => getitem_key entry (py "id") = Return id) entries ids
             /\ v = PyList ids).
Proof.
  split; [|split; [|split]].
  - unfold list_available_models. step_M.
    destruct outcome as [models|e]; [|eauto].
    destruct (getitem_key models _) as [data|e]; [|eauto].
    destruct (iterate data) as [entries|e]; [|eauto].
    destruct (comprehension _ entries); eauto.
  - intros e ->. reflexivity.
  - intros models data entries ids -> Hdata Hit Hids.
    apply comprehension_Forall2 in Hids.
    unfold list_available_models. step_M. by rewrite Hdata, Hit, Hids.
  - intros v. unfold list_available_models. step_M.
    destruct outcome as [models|e]; [|intros [= <-]; by left].
    destruct (getitem_key models _) as [data|e] eqn:Hdata; [|intros [= <-]; by left].
    destruct (iterate data) as [entries|e] eqn:Hit; [|intros [= <-]; by left].
    destruct (comprehension _ entries) as [ids|e] eqn:Hids; [|intros [= <-]; by left].
    intros [= <-]. right. exists models, data, entries, ids.
    repeat split; try done. by apply comprehension_Forall2.
Qed.

Definition sample_catalog : pyval :=
  PyDict [(py "object", PyStr (py "list"));
          (py "data", PyList [PyDict [(py "id", PyStr (py "gpt-4o-mini"))];
                              PyDict [(py "id", PyStr (py "gpt-3.5-turbo"))]])].

Lemma list_available_models_recovers_witness :
  list_available_models (Return sample_catalog) one_user_turn
  = (Return (PyList [PyStr (py "gpt-4o-mini"); PyStr (py "gpt-3.5-turbo")]), one_user_turn)
  /\ list_available_models (Raise (RemoteError "unauthorized")) one_user_turn
     = (Return PyNone, one_user_turn).
Proof.
  split.
  - refine (proj1 (proj2 (proj2 (list_available_models_recovers
                                   (Return sample_catalog) one_user_turn)))
              sample_catalog _ _ _ eq_refl eq_refl eq_refl _).
    repeat constructor.
  - exact (proj1 (proj2 (list_available_models_recovers
                           (Raise (RemoteError "unauthorized")) one_user_turn))
             (RemoteError "unauthorized") eq_refl).
Defined.


(** The catalog of a successful query in the shape the client library
    gives it: an object whose [data] attribute lists objects with an [id]
    attribute. *)
Definition attr_catalog : pyval :=
  PyObj [(py "object", PyStr (py "list"));
         (py "data", PyList [PyObj [(py "id", PyStr (py "gpt-4o-mini"))];
                             PyObj [(py "id", PyStr (py "gpt-3.5-turbo"))]])].

(** C8. The code departs from this behaviour on a successful query. The
    call does not raise, as stated; but when the query returns
    [attr_catalog], whose entries carry the identifiers "gpt-4o-mini" and
    "gpt-3.5-turbo", subscripting the catalog raises inside the [try] and
    [list_available_models] returns [None] where the two identifiers were
    due. *)
Theorem list_available_models_loses_catalog :
  (data ← getattr attr_catalog (py "data");
   entries ← iterate data;
   comprehension (fun model => getattr model (py "id")) entries)
  = Return [PyStr (py "gpt-4o-mini"); PyStr (py "gpt-3.5-turbo")]
  /\ getitem_key attr_catalog (py "data") = Raise TypeError
  /\ list_available_models (Return attr_catalog) one_user_turn
     = (Return PyNone, one_user_turn)
  /\ fst (list_available_models (Return attr_catalog) one_user_turn)
     <> Return (PyList [PyStr (py "gpt-4o-mini"); PyStr (py "gpt-3.5-turbo")]).
Proof. repeat split. discriminate. Qed.

(** * Further properties of the client *)

(** ** The caller: [main] in [src/main.py]

    The constructor reaches outside the object twice before it sets any
    attribute: [logging.FileHandler("logs/openai_model.log")] opens the log
    file and [OpenAI(api_key=api_key)] builds the handle. Either may raise;
    a [host] gives the outcome of each. *)
Record host : Type := Host {
  file_handler : exc unit;
  openai_handle : pystr -> exc unit
}.

(** [OpenAIModel(api_key, model_name)]: the two outside steps, then the
    attributes. *)
Definition construct (h : host) (api_key name : pystr) : exc OpenAIModel :=
  _ ← file_handler h;
  _ ← openai_handle h api_key;
  Return (__init__ api_key name).

(** The default arguments of [chat]. The two float defaults are opaque to
    the client and are parameters here; [n] is 1 and [stop] is [None]. *)
Definition chat_defaults (temperature_default top_p_default : pyval) : sampling :=
  {| temperature := temperature_default; top_p := top_p_default;
     n := PyInt 1; stop := PyNone |}.

Definition main_prompt : pystr := py "Bonjour, comment vas-tu ?".

(** What [print(v)] writes to standard output, for the two kinds of value
    [chat] returns: the text of [str(v)] and a line feed. The rendering of
    other values is not modelled. *)
Definition print (v : pyval) : option pystr :=
  match v with
  | PyNone => Some (py "None" ++ [10%N])
  | PyStr s => Some (s ++ [10%N])
  | _ => None
  end.

(** [main], the configuration values taken as strings (both environment
    variables set). The result is what was written to standard output, or
    the exception that ended [main]. *)
Definition main (h : host) (temperature_default top_p_default : pyval)
    (OPENAI_API_KEY OPENAI_MODEL_NAME : pystr)
    (create : request -> exc pyval) : exc (option pystr) :=
  model ← construct h OPENAI_API_KEY OPENAI_MODEL_NAME;
  response ← fst ((_ ← add_message (py "user") main_prompt;
                   chat create (chat_defaults temperature_default top_p_default))
                    model);
  Return (print response).

#[global] Instance message_eq_dec : EqDecision message.
Proof. solve_decision. Defined.

(** Whether a call is [reset_conversation]. *)
Definition is_reset (op : call) : bool :=
  match op with
  | ResetConversation => true
  | _ => false
  end.

(** ** More on trimming *)

Lemma lstrip_decomp s :
  exists pre, s = pre ++ lstrip s /\ forallb isspace pre = true.
Proof.
  induction s as [|c s (pre & Hs & Hpre)]; simpl.
  - by exists [].
  - destruct (isspace c) eqn:Hc.
    + exists (c :: pre). simpl. rewrite Hc, Hpre. split; [by rewrite <- Hs | done].
    + by exists [].
Qed.

Lemma forallb_rev_true {A : Type} (f : A -> bool) l :
  forallb f l = true -> forallb f (rev l) = true.
Proof.
  rewrite !forallb_forall. intros H x Hx. apply H. by apply in_rev.
Qed.

Lemma rstrip_decomp s :
  exists post, s = rstrip s ++ post /\ forallb isspace post = true.
Proof.
  destruct (lstrip_decomp (rev s)) as (pre & Hs & Hpre).
  exists (rev pre). split; [| by apply forallb_rev_true].
  unfold rstrip. rewrite <- rev_app_distr, <- Hs. by rewrite rev_involutive.
Qed.

Lemma strip_decomp s :
  exists pre post,
    s = pre ++ strip s ++ post
    /\ forallb isspace pre = true /\ forallb isspace post = true.
Proof.
  destruct (lstrip_decomp s) as (pre & Hs & Hpre).
  destruct (rstrip_decomp (lstrip s)) as (post & Hl & Hpost).
  exists pre, post. unfold strip. by rewrite <- Hl.
Qed.

Lemma strip_head_nonspace s c t : strip s = c :: t -> isspace c = false.
Proof.
  unfold strip. destruct (lstrip_head s) as [-> | (d & u & -> & Hd)]; [done|].
  rewrite rstrip_cons_keep by done. by intros [= <- _].
Qed.

Lemma strip_last_nonspace s c : last (strip s) = Some c -> isspace c = false.
Proof.
  unfold strip, rstrip.
  destruct (lstrip_head (rev (lstrip s))) as [-> | (d & u & -> & Hd)]; [done|].
  simpl. rewrite last_snoc. by intros [= <-].
Qed.

Lemma strip_nonempty_ends s :
  strip s <> [] ->
  (exists a, head (strip s) = Some a /\ isspace a = false)
  /\ (exists z, last (strip s) = Some z /\ isspace z = false).
Proof.
  intros Hne. split.
  - destruct (strip s) as [|a t] eqn:E; [done|].
    exists a. split; [done|]. by eapply strip_head_nonspace.
  - destruct (last (strip s)) as [z|] eqn:E.
    + exists z. split; [done|]. by eapply strip_last_nonspace.
    + by apply last_None in E.
Qed.

(** X1. For a role among "user", "assistant", "system" and a content that
    is not all whitespace, [add_message] returns normally and appends one
    entry, leaving the earlier entries and every other attribute alone. The
    stored content is the argument with whitespace removed at both ends
    only: it begins and ends with a non-space code point. *)
Theorem add_message_stores_trimmed_turn (r c : pystr) (self : OpenAIModel) :
  r = py "user" \/ r = py "assistant" \/ r = py "system" ->
  forallb isspace c = false ->
  let self' := snd (add_message r c self) in
  fst (add_message r c self) = Return tt
  /\ _messages self' = _messages self ++ [Message r (strip c)]
  /\ length (_messages self') = S (length (_messages self))
  /\ client self' = client self /\ model_name self' = model_name self
  /\ max_tokens self' = max_tokens self /\ _response self' = _response self
  /\ (exists pre post, c = pre ++ strip c ++ post
        /\ forallb isspace pre = true /\ forallb isspace post = true)
  /\ (exists a, head (strip c) = Some a /\ isspace a = false)
  /\ (exists z, last (strip c) = Some z /\ isspace z = false).
Proof.
  intros Hr%valid_role_spec Hc. cbv zeta.
  assert (strip c <> []) as Hne.
  { intros E%strip_nil_iff. congruence. }
  rewrite (add_message_ok r c self Hr Hne). simpl.
  destruct (strip_nonempty_ends c Hne) as [Hhead Hlast].
  repeat split; try done.
  - rewrite length_app. simpl. lia.
  - apply strip_decomp.
Qed.

Lemma add_message_stores_trimmed_turn_witness :
  _messages (snd (add_message (py "system") (py "  Be brief.  ") one_user_turn))
  = [Message (py "user") (py "Hi"); Message (py "system") (py "Be brief.")].
Proof.
  exact (proj1 (proj2 (add_message_stores_trimmed_turn
                         (py "system") (py "  Be brief.  ") one_user_turn
                         (or_intror (or_intror eq_refl)) eq_refl))).
Defined.

(** ** What a sequence of calls keeps *)

Lemma run_snoc calls op self : run (calls ++ [op]) self = after op (run calls self).
Proof. unfold run. by rewrite fold_left_app. Qed.

Lemma add_message_cases r c self :
  snd (add_message r c self) = self
  \/ (valid_role r = true /\ strip c <> []
      /\ snd (add_message r c self)
         = set_messages (_messages self ++ [Message r (strip c)]) self).
Proof.
  destruct (valid_role r) eqn:Hv.
  - destruct (decide (strip c = [])) as [Hb|Hb].
    + left. by rewrite add_message_blank.
    + right. by rewrite add_message_ok.
  - left. by rewrite add_message_invalid_role.
Qed.

(** A call that is not a reset appends at most one entry. *)
Lemma after_appends op self :
  is_reset op = false ->
  exists suffix, _messages (after op self) = _messages self ++ suffix
                 /\ (length suffix <= 1)%nat.
Proof.
  intros Hop. destruct op as [r c|create p| | |outcome]; simpl in *; try discriminate.
  - destruct (add_message_cases r c self) as [-> | (_ & _ & ->)].
    + exists []. split; [by rewrite app_nil_r | simpl; lia].
    + eexists [_]. split; [reflexivity | simpl; lia].
  - destruct (chat_cases create p self) as [-> | (response & raw & _ & _ & _ & ->)].
    + exists []. split; [by rewrite app_nil_r | simpl; lia].
    + eexists [_]. split; [reflexivity | simpl; lia].
  - rewrite get_last_response_state. exists []. split; [by rewrite app_nil_r | simpl; lia].
  - rewrite list_available_models_state. exists []. split; [by rewrite app_nil_r | simpl; lia].
Qed.

(** No call assigns [client], [model_name] or [max_tokens]. *)
Lemma after_config op self :
  client (after op self) = client self
  /\ model_name (after op self) = model_name self
  /\ max_tokens (after op self) = max_tokens self.
Proof.
  destruct op as [r c|create p| | |outcome]; simpl.
  - by destruct (add_message_cases r c self) as [-> | (_ & _ & ->)].
  - by destruct (chat_cases create p self) as [-> | (response & raw & _ & _ & _ & ->)].
  - done.
  - by rewrite get_last_response_state.
  - by rewrite list_available_models_state.
Qed.

Lemma run_config calls self :
  client (run calls self) = client self
  /\ model_name (run calls self) = model_name self
  /\ max_tokens (run calls self) = max_tokens self.
Proof.
  revert self. induction calls as [|op calls IH]; intros self; simpl; [done|].
  destruct (IH (after op self)) as (-> & -> & ->). apply after_config.
Qed.

Lemma get_model_max_tokens_values name :
  get_model_max_tokens name = 16384 /\ name = py "gpt-4o-mini"
  \/ get_model_max_tokens name = 4096 /\ name <> py "gpt-4o-mini".
Proof.
  unfold get_model_max_tokens. rewrite token_limits_lookup.
  repeat case_decide; subst; simpl; auto.
Qed.

(** X2. Between two resets the history only grows at its end: after any
    sequence of calls that contains no [reset_conversation], the earlier
    history is a prefix of the new one, every earlier entry is still at its
    index, and at most one entry was added per call. *)
Theorem history_append_only (calls : list call) (self : OpenAIModel) :
  forallb (fun op => negb (is_reset op)) calls = true ->
  exists suffix,
    _messages (run calls self) = _messages self ++ suffix
    /\ (length suffix <= length calls)%nat
    /\ (forall i m, _messages self !! i = Some m ->
                    _messages (run calls self) !! i = Some m).
Proof.
  revert self. induction calls as [|op calls IH]; intros self Hno; simpl in *.
  - exists []. rewrite app_nil_r. auto.
  - apply andb_prop in Hno as [Hop%negb_true_iff Hno].
    destruct (after_appends op self Hop) as (s1 & E1 & L1).
    destruct (IH (after op self) Hno) as (s2 & E2 & L2 & _).
    exists (s1 ++ s2). rewrite E2, E1, <- app_assoc.
    split; [done|]. split; [rewrite length_app; lia|].
    intros i m Hi. by apply lookup_app_l_Some.
Qed.

Lemma history_append_only_witness :
  exists suffix,
    _messages (run [AddMessage (py "assistant") (py "Salut"); GetLastResponse;
                    Chat failing_endpoint test_sampling] one_user_turn)
    = _messages one_user_turn ++ suffix.
Proof.
  destruct (history_append_only
              [AddMessage (py "assistant") (py "Salut"); GetLastResponse;
               Chat failing_endpoint test_sampling] one_user_turn eq_refl)
    as (suffix & E & _).
  exists suffix. exact E.
Defined.

(** X3. The credential, the model name and the token budget are fixed at
    construction: after any sequence of calls they are what the constructor
    set, the budget is the table's value for the model name, 16384 for
    "gpt-4o-mini" and 4096 for every other name, and so always positive. *)
Theorem configuration_fixed_at_construction
    (api_key name : pystr) (calls : list call) :
  let self := run calls (__init__ api_key name) in
  client self = api_key
  /\ model_name self = name
  /\ max_tokens self = get_model_max_tokens name
  /\ (max_tokens self = 16384 <-> name = py "gpt-4o-mini")
  /\ (max_tokens self = 4096 <-> name <> py "gpt-4o-mini")
  /\ 0 < max_tokens self.
Proof.
  cbv zeta. destruct (run_config calls (__init__ api_key name)) as (-> & -> & ->).
  simpl. destruct (get_model_max_tokens_values name) as [[-> Hn] | [-> Hn]];
    repeat split; try done; try lia; intros; congruence.
Qed.

(** X9. A reset brings the client back to the state the constructor built:
    whatever calls came before, after [reset_conversation] every attribute
    equals that of a fresh client with the same credential and model. *)
Theorem reset_restores_constructed_state
    (api_key name : pystr) (calls : list call) :
  run (calls ++ [ResetConversation]) (__init__ api_key name) = __init__ api_key name.
Proof.
  rewrite run_snoc. simpl. unfold reset_conversation. step_M.
  unfold set_response, set_messages. simpl.
  destruct (run_config calls (__init__ api_key name)) as (-> & -> & ->).
  reflexivity.
Qed.

(** ** The stored raw response *)

Lemma attr_readable_truthy response v :
  first_content_attr response = Return v -> truthy response = true.
Proof.
  unfold first_content_attr, getattr at 1.
  destruct response as [| | | | |[|kv kvs]|[|kv kvs]]; simpl; try discriminate; done.
Qed.

(** What [chat] leaves in [_response], together with the turn it appended. *)
Definition response_recorded (self : OpenAIModel) : Prop :=
  _response self = PyNone
  \/ exists raw,
       first_content_attr (_response self) = Return (PyStr raw)
       /\ strip raw <> []
       /\ In (Message (py "assistant") (strip raw)) (_messages self).

Lemma response_recorded_after op self :
  response_recorded self -> response_recorded (after op self).
Proof.
  intros Hrec. destruct op as [r c|create p| | |outcome]; simpl.
  - destruct (add_message_cases r c self) as [-> | (_ & _ & ->)]; [done|].
    destruct Hrec as [Hnone | (raw & H1 & H2 & H3)]; [by left|].
    right. exists raw. simpl. repeat split; try done.
    apply in_or_app. by left.
  - destruct (chat_cases create p self)
      as [-> | (response & raw & _ & Hattr & Hne & ->)]; [done|].
    right. exists raw. simpl. repeat split; try done.
    apply in_or_app. right. by left.
  - by left.
  - by rewrite get_last_response_state.
  - by rewrite list_available_models_state.
Qed.

Lemma response_recorded_run calls self :
  response_recorded self -> response_recorded (run calls self).
Proof.
  revert self. induction calls as [|op calls IH]; intros self H; simpl; [done|].
  apply IH. by apply response_recorded_after.
Qed.

(** X4. In every state reached from construction, either no raw response is
    stored, or the stored one is a response whose first candidate's content
    reads by attributes as a text, and the history holds the assistant turn
    with that text trimmed. A stored response is never falsy and never a
    plain dict, so the test [if self._response] only separates [None]. *)
Theorem stored_response_has_its_turn
    (api_key name : pystr) (calls : list call) :
  let self := run calls (__init__ api_key name) in
  (_response self = PyNone
   \/ exists raw,
        first_content_attr (_response self) = Return (PyStr raw)
        /\ strip raw <> []
        /\ In (Message (py "assistant") (strip raw)) (_messages self))
  /\ (truthy (_response self) = false <-> _response self = PyNone)
  /\ (forall kvs, _response self <> PyDict kvs).
Proof.
  cbv zeta.
  pose proof (response_recorded_run calls (__init__ api_key name) (or_introl eq_refl))
    as Hrec.
  split; [exact Hrec|]. destruct Hrec as [-> | (raw & Hattr & _ & _)].
  - split; [done|]. discriminate.
  - split.
    + rewrite (attr_readable_truthy _ _ Hattr). split; [discriminate|].
      intros E. rewrite E in Hattr. discriminate.
    + intros kvs E. rewrite E in Hattr. discriminate.
Qed.

(** ** [chat]: all or nothing *)

(** X5. Every [chat] call ends in one of two ways and never raises. Either
    it returns [None] and no attribute changed; or the endpoint returned a
    response whose first candidate's content is a text, [chat] returns that
    text trimmed, which is never empty, appended it as one assistant turn
    and stored the response. So [None] is returned exactly when the client
    is unchanged. *)
Theorem chat_all_or_nothing
    (create : request -> exc pyval) (p : sampling) (self : OpenAIModel) :
  let self' := snd (chat create p self) in
  ((fst (chat create p self) = Return PyNone /\ self' = self)
   \/ exists response raw,
        create (chat_request p self) = Return response
        /\ first_content_attr response = Return (PyStr raw)
        /\ strip raw <> []
        /\ fst (chat create p self) = Return (PyStr (strip raw))
        /\ _messages self' = _messages self ++ [Message (py "assistant") (strip raw)]
        /\ _response self' = response)
  /\ (fst (chat create p self) = Return PyNone <-> self' = self)
  /\ fst (chat create p self) <> Return (PyStr []).
Proof.
  cbv zeta.
  destruct (chat_cases create p self) as [E | (response & raw & H1 & H2 & H3 & E)];
    rewrite E; simpl.
  - split; [by left|]. split; [done|]. discriminate.
  - split; [right; exists response, raw; by repeat split|].
    split; [|congruence].
    split; [discriminate|].
    intros Heq. apply (f_equal (fun s => length (_messages s))) in Heq.
    simpl in Heq. rewrite length_app in Heq. simpl in Heq. lia.
Qed.

(** X6. The two readers disagree on attribute-only responses: when the
    endpoint returns a plain object whose first candidate's content is a
    non-blank text, [chat] succeeds and stores it, and the next
    [get_last_response] raises [TypeError] instead of returning, leaving the
    client as [chat] left it. *)
Theorem get_last_response_raises_after_attribute_only_chat
    (create : request -> exc pyval) (p : sampling) (self : OpenAIModel)
    (fields : list (pystr * pyval)) (raw : pystr) :
  create (chat_request p self) = Return (PyObj fields) ->
  first_content_attr (PyObj fields) = Return (PyStr raw) ->
  forallb isspace raw = false ->
  fst (chat create p self) = Return (PyStr (strip raw))
  /\ get_last_response (snd (chat create p self))
     = (Raise TypeError, snd (chat create p self)).
Proof.
  intros H1 H2 H3.
  assert (strip raw <> []) as Hne by (intros E%strip_nil_iff; congruence).
  rewrite (chat_ok create p self (PyObj fields) raw H1 H2 Hne).
  split; reflexivity.
Qed.

Lemma get_last_response_raises_after_attribute_only_chat_witness :
  let create := fun _ : request => Return (attr_completion (py "Salut !")) in
  fst (chat create test_sampling one_user_turn) = Return (PyStr (py "Salut !"))
  /\ fst (get_last_response (snd (chat create test_sampling one_user_turn)))
     = Raise TypeError.
Proof.
  cbv zeta.
  destruct (get_last_response_raises_after_attribute_only_chat
              (fun _ => Return (attr_completion (py "Salut !")))
              test_sampling one_user_turn _ (py "Salut !")
              eq_refl eq_refl eq_refl) as [H1 H2].
  split; [exact H1 | exact (f_equal fst H2)].
Defined.

(** X7. Responses [chat] cannot read end in [None] with the client
    unchanged: a response that is not an object with attributes ([None], a
    number, a text, a list, a plain dict), one whose [choices] is an empty
    list, and one whose first candidate's content is [None]. *)
Theorem chat_malformed_response_returns_none
    (create : request -> exc pyval) (p : sampling) (self : OpenAIModel)
    (response : pyval) :
  create (chat_request p self) = Return response ->
  ((forall fields, response <> PyObj fields)
   /\ (forall kvs, response <> PyAttrDict kvs))
  \/ getattr response (py "choices") = Return (PyList [])
  \/ first_content_attr response = Return PyNone ->
  chat create p self = (Return PyNone, self).
Proof.
  intros Hc [[Hobj Hdict] | [Hempty | Hnone]].
  - apply (chat_unreadable create p self response AttributeError Hc).
    destruct response; try reflexivity; [by destruct (Hobj fields) | by destruct (Hdict kvs)].
  - apply (chat_unreadable create p self response IndexError Hc).
    unfold first_content_attr. by rewrite Hempty.
  - by apply (chat_not_text create p self response PyNone AttributeError Hc).
Qed.

Lemma chat_malformed_response_returns_none_witness :
  chat (fun _ => Return (PyDict [(py "choices", PyList [])])) test_sampling one_user_turn
  = (Return PyNone, one_user_turn)
  /\ chat (fun _ => Return (PyObj [(py "choices", PyList [])])) test_sampling one_user_turn
     = (Return PyNone, one_user_turn).
Proof.
  split.
  - apply (chat_malformed_response_returns_none _ _ _
             (PyDict [(py "choices", PyList [])]) eq_refl).
    left. split; intros; discriminate.
  - apply (chat_malformed_response_returns_none _ _ _
             (PyObj [(py "choices", PyList [])]) eq_refl).
    right. left. reflexivity.
Defined.

(** ** [list_available_models]: no partial listing *)

Lemma comprehension_raises {A B : Type} (f : A -> exc B) xs :
  (exists x e, In x xs /\ f x = Raise e) -> exists e, comprehension f xs = Raise e.
Proof.
  induction xs as [|y xs IH]; intros (x & e & Hin & Hx); simpl in *; [done|].
  destruct (f y) as [b|e'] eqn:Hy; simpl; [|eauto].
  destruct Hin as [-> | Hin]; [congruence|].
  destruct IH as [e'' ->]; eauto.
Qed.

(** X8. [list_available_models] gives no partial listing: when one entry
    of the catalog has no readable ["id"], the ids of all the other entries
    are dropped and [None] is returned. A catalog that cannot be
    subscripted by key at all, an attribute-only object included, gives
    [None] as well. *)
Theorem list_available_models_no_partial_listing
    (models : pyval) (self : OpenAIModel) :
  ((forall kvs, models <> PyDict kvs) /\ (forall kvs, models <> PyAttrDict kvs))
  \/ (exists data entries entry e,
        getitem_key models (py "data") = Return data
        /\ iterate data = Return entries
        /\ In entry entries
        /\ getitem_key entry (py "id") = Raise e) ->
  list_available_models (Return models) self = (Return PyNone, self).
Proof.
  intros [[Hd Ha] | (data & entries & entry & e & Hdata & Hit & Hin & Hid)];
    unfold list_available_models; step_M.
  - destruct models; try reflexivity; [by destruct (Hd kvs) | by destruct (Ha kvs)].
  - rewrite Hdata, Hit.
    destruct (comprehension_raises (fun model => getitem_key model (py "id")) entries)
      as [e' ->]; [|reflexivity].
    by exists entry, e.
Qed.

Lemma list_available_models_no_partial_listing_witness :
  list_available_models
    (Return (PyDict [(py "data",
                      PyList [PyDict [(py "id", PyStr (py "gpt-4o-mini"))];
                              PyDict [(py "name", PyStr (py "unnamed"))]])]))
    one_user_turn
  = (Return PyNone, one_user_turn)
  /\ list_available_models
       (Return (PyObj [(py "data", PyList [PyObj [(py "id", PyStr (py "gpt-4o-mini"))]])]))
       one_user_turn
     = (Return PyNone, one_user_turn).
Proof.
  split.
  - apply list_available_models_no_partial_listing. right.
    exists (PyList [PyDict [(py "id", PyStr (py "gpt-4o-mini"))];
                    PyDict [(py "name", PyStr (py "unnamed"))]]),
           [PyDict [(py "id", PyStr (py "gpt-4o-mini"))];
            PyDict [(py "name", PyStr (py "unnamed"))]],
           (PyDict [(py "name", PyStr (py "unnamed"))]), KeyError.
    repeat split; try reflexivity. right. left. reflexivity.
  - apply list_available_models_no_partial_listing. left.
    split; intros; discriminate.
Defined.

(** ** [get_last_response]: what it can raise *)

Lemma getitem_key_raises v k e :
  getitem_key v k = Raise e -> e = TypeError \/ e = KeyError.
Proof.
  destruct v; simpl; try (intros [= <-]; auto);
    destruct (assoc k kvs); intros [= <-]; auto.
Qed.

Lemma seq_index_raises {A : Type} (xs : list A) i e :
  seq_index xs i = Raise e -> e = IndexError.
Proof.
  unfold seq_index. destruct (_ && _); [destruct (nth_error _ _)|];
    by intros [= <-].
Qed.

Lemma getitem_idx_raises v i e :
  getitem_idx v i = Raise e -> e = TypeError \/ e = KeyError \/ e = IndexError.
Proof.
  destruct v; simpl; try (intros [= <-]; auto).
  - destruct (seq_index s i) eqn:E; simpl; [discriminate|].
    intros [= <-]. apply seq_index_raises in E. auto.
  - intros E%seq_index_raises. auto.
Qed.

Lemma first_content_item_raises response e :
  first_content_item response = Raise e ->
  e = TypeError \/ e = KeyError \/ e = IndexError.
Proof.
  unfold first_content_item.
  destruct (getitem_key response _) as [choices|e1] eqn:H1; simpl;
    [| intros [= <-]; apply getitem_key_raises in H1; tauto].
  destruct (getitem_idx choices 0) as [choice|e2] eqn:H2; simpl;
    [| intros [= <-]; by apply getitem_idx_raises in H2].
  destruct (getitem_key choice _) as [msg|e3] eqn:H3; simpl;
    [| intros [= <-]; apply getitem_key_raises in H3; tauto].
  intros H4%getitem_key_raises. tauto.
Qed.

(** X10. [get_last_response] never writes an attribute, whether it returns
    or raises. It can raise only when a raw response is stored, and then
    only [TypeError], [KeyError] or [IndexError], from subscripting that
    response. *)
Theorem get_last_response_never_writes (self : OpenAIModel) :
  snd (get_last_response self) = self
  /\ (forall e, fst (get_last_response self) = Raise e ->
        _response self <> PyNone
        /\ truthy (_response self) = true
        /\ first_content_item (_response self) = Raise e
        /\ (e = TypeError \/ e = KeyError \/ e = IndexError)).
Proof.
  split; [apply get_last_response_state|].
  intros e. unfold get_last_response. step_M.
  destruct (truthy (_response self)) eqn:Ht; simpl; [|discriminate].
  intros He. repeat split; try done.
  - intros E. rewrite E in Ht. discriminate.
  - by apply (first_content_item_raises (_response self)).
Qed.

Lemma get_last_response_never_writes_witness :
  let self := set_response (PyAttrDict [(py "choices", PyList [])]) one_user_turn in
  fst (get_last_response self) = Raise IndexError
  /\ first_content_item (_response self) = Raise IndexError.
Proof.
  cbv zeta. split; [reflexivity|].
  exact (proj1 (proj2 (proj2
           (proj2 (get_last_response_never_writes
                     (set_response (PyAttrDict [(py "choices", PyList [])]) one_user_turn))
              IndexError eq_refl)))).
Defined.

(** ** [main] *)

Lemma main_after_construction h t tp key name create :
  file_handler h = Return tt ->
  openai_handle h key = Return tt ->
  main h t tp key name create
  = (response ← fst (chat create (chat_defaults t tp)
                       (set_messages [Message (py "user") main_prompt]
                          (__init__ key name)));
     Return (print response)).
Proof.
  intros Hlog Hkey. unfold main, construct. rewrite Hlog, Hkey.
  cbv beta iota delta [mbind exc_bind M_bind].
  rewrite (add_message_ok (py "user") main_prompt (__init__ key name));
    [| reflexivity | vm_compute; discriminate].
  replace (strip main_prompt) with main_prompt by reflexivity.
  reflexivity.
Qed.


Definition ready_host : host :=
  {| file_handler := Return tt; openai_handle := fun _ => Return tt |}.

Definition echo_endpoint : request -> exc pyval :=
  fun req => if bool_decide (req_messages req = [Message (py "user") main_prompt])
             then Return (attr_completion (py " Tres bien, merci ! "))
             else Raise (RemoteError "unexpected history").


(** ** Replaying a history *)

(** The calls that add the entries of [ms] again, in order. *)
Definition replay (ms : list message) : list call :=
  List.map (fun m => AddMessage (role m) (content m)) ms.

(** An entry as [add_message] stores it: a valid role and a content that
    is its own trimming and not empty. *)
Definition stored (m : message) : Prop :=
  valid_role (role m) = true /\ strip (content m) = content m /\ content m <> [].

Lemma stored_after op self :
  Forall stored (_messages self) -> Forall stored (_messages (after op self)).
Proof.
  intros Hall. destruct op as [r c|create p| | |outcome]; simpl.
  - destruct (add_message_cases r c self) as [-> | (Hr & Hc & ->)]; [done|].
    simpl. apply Forall_app. split; [done|].
    constructor; [|constructor]. split; [done|]. simpl. by rewrite strip_idemp.
  - destruct (chat_cases create p self)
      as [-> | (response & raw & _ & _ & Hne & ->)]; [done|].
    simpl. apply Forall_app. split; [done|].
    constructor; [|constructor]. split; [done|]. simpl. by rewrite strip_idemp.
  - constructor.
  - by rewrite get_last_response_state.
  - by rewrite list_available_models_state.
Qed.

Lemma stored_run calls self :
  Forall stored (_messages self) -> Forall stored (_messages (run calls self)).
Proof.
  revert self. induction calls as [|op calls IH]; intros self H; simpl; [done|].
  apply IH. by apply stored_after.
Qed.

Lemma replay_appends ms self :
  Forall stored ms -> _messages (run (replay ms) self) = _messages self ++ ms.
Proof.
  revert self. induction ms as [|[r c] ms IH]; intros self Hall; simpl.
  - by rewrite app_nil_r.
  - inversion Hall as [|? ? (Hr & Hc & Hne) Hrest]; subst. simpl in *.
    rewrite (IH _ Hrest).
    rewrite add_message_ok; [| done | by rewrite Hc].
    simpl. by rewrite Hc, <- app_assoc.
Qed.

(** X12. Every entry of a reachable history holds a content that is already
    trimmed, so the history survives a round trip through [add_message]:
    adding its entries again, in order, to a fresh client rebuilds the same
    history. *)
Theorem history_replay
    (api_key name : pystr) (calls : list call) (api_key' name' : pystr) :
  let self := run calls (__init__ api_key name) in
  (forall m, In m (_messages self) -> strip (content m) = content m)
  /\ _messages (run (replay (_messages self)) (__init__ api_key' name'))
     = _messages self.
Proof.
  cbv zeta.
  pose proof (stored_run calls (__init__ api_key name) (Forall_nil_2 _)) as Hall.
  split.
  - intros m Hin. rewrite List.Forall_forall in Hall. by destruct (Hall m Hin) as (_ & ? & _).
  - by rewrite (replay_appends _ _ Hall).
Qed.

Lemma history_replay_witness :
  strip (py "Bonjour!") = py "Bonjour!"
  /\ _messages (run (replay (_messages (run sample_session
                                          (__init__ (py "sk-test") (py "gpt-4o-mini")))))
                  (__init__ (py "sk-other") (py "gpt-3.5-turbo")))
     = [Message (py "user") (py "Hi"); Message (py "assistant") (py "Bonjour!")].
Proof.
  destruct (history_replay (py "sk-test") (py "gpt-4o-mini") sample_session
              (py "sk-other") (py "gpt-3.5-turbo")) as [Htrim Hsame].
  split.
  - exact (Htrim (Message (py "assistant") (py "Bonjour!"))
             (or_intror (or_introl eq_refl))).
  - exact Hsame.
Defined.
